(** * Signal engine of the forex trading bot (sabelorobot.py)

    A shallow embedding of [calculate_indicators], its inner helper
    [last_valid_value] and [generate_signal], followed by the properties
    of the signal engine.

    Conventions of the embedding.
    - The source computes in IEEE 754 doubles.  Two embeddings follow.
      In the first a float is either [NaN] or an exact rational [Fin q]:
      arithmetic is exact (no rounding, no overflow to infinity), and a
      comparison with [NaN] is false.  It serves the properties that
      compare counters and follow the guards, where rounding plays no
      part.  The second, [Binary64], computes in doubles and serves the
      properties of the price levels.
    - Python integers (the vote counters) are [Z].
    - [talib] is an external library: its five entry points are the fields
      of the class [TaLib]; each one may raise, which is the [Raise] case
      of [result].
    - The two network reads of [generate_signal] are its arguments: the
      candle lists that [fetch_forex_data] returned (empty on any failure)
      and what [fetch_current_price] returned ([None] on any failure).
      The quote is consulted only where the source calls the fetcher. *)

From Stdlib Require Import ZArith QArith Qabs List Bool String Lia Lqa.
Import ListNotations.

Set Implicit Arguments.

(** ** Numbers *)

Module Float.

Inductive pyfloat : Type :=
| NaN
| Fin (q : Q).

(** [np.isnan] *)
Definition isnan (x : pyfloat) : bool :=
  match x with
  | NaN => true
  | Fin _ => false
  end.

Definition Qltb (a b : Q) : bool := negb (Qle_bool b a).

(** [x < y] and [x > y] on floats: false as soon as one side is NaN. *)
Definition lt (x y : pyfloat) : bool :=
  match x, y with
  | Fin a, Fin b => Qltb a b
  | _, _ => false
  end.

Definition gt (x y : pyfloat) : bool := lt y x.

Definition lift2 (op : Q -> Q -> Q) (x y : pyfloat) : pyfloat :=
  match x, y with
  | Fin a, Fin b => Fin (op a b)
  | _, _ => NaN
  end.

Definition add := lift2 Qplus.
Definition sub := lift2 Qminus.
Definition mul := lift2 Qmult.


End Float.

Import Float.

(** ** Configuration ([class Config]) *)

Module Config.
Definition RISK_REWARD_RATIO : pyfloat := Fin 1.5.
Definition ATR_PERIOD : Z := 10.
Definition ATR_SL_MULTIPLIER : pyfloat := Fin 0.8.
Definition ATR_TP_MULTIPLIER : pyfloat := mul ATR_SL_MULTIPLIER RISK_REWARD_RATIO.

Definition EMA_FAST : Z := 12.
Definition EMA_SLOW : Z := 26.
Definition RSI_PERIOD : Z := 14.
Definition RSI_OVERBOUGHT : pyfloat := Fin 70.
Definition RSI_OVERSOLD : pyfloat := Fin 30.
Definition MACD_FAST : Z := 12.
Definition MACD_SLOW : Z := 26.
Definition MACD_SIGNAL : Z := 9.
End Config.

(** ** Exceptions *)

Inductive result (A : Type) : Type :=
| Ok (a : A)
| Raise (e : string).

Arguments Ok {A} a.
Arguments Raise {A} e.

Definition bind {A B : Type} (m : result A) (k : A -> result B) : result B :=
  match m with
  | Ok a => k a
  | Raise e => Raise e
  end.

Notation "x <- m ;; k" := (bind m (fun x => k))
  (at level 61, m at next level, right associativity).
Notation "' p <- m ;; k" := (bind m (fun x => match x with p => k end))
  (at level 61, p pattern, m at next level, right associativity).

(** ** Candles and the indicator calculator *)

Record candle : Type := mkCandle {
  time : Z;
  open : Q;
  high : Q;
  low : Q;
  close : Q;
  volume : Q
}.

(** [last_valid_value]: the loop [for i in range(len(arr)-1, -1, -1)],
    with [n] the number of indices still to visit ([i = n - 1]). *)
Fixpoint scan_back (arr : list pyfloat) (n : nat) : option pyfloat :=
  match n with
  | O => None
  | S i =>
      match nth_error arr i with
      | Some x => if negb (isnan x) then Some x else scan_back arr i
      | None => None
      end
  end.

Definition last_valid_value (arr : option (list pyfloat)) : option pyfloat :=
  match arr with
  | None => None
  | Some l =>
      if (List.length l =? 0)%nat then None
      else scan_back l (List.length l)
  end.

(** The dictionary built by [calculate_indicators]; [A] is the type of its
    values: [option pyfloat] as returned (a value may be [None]), [pyfloat]
    once every value is known to be present. *)
Record snapshot (A : Type) : Type := mkSnapshot {
  ema_fast : A;
  ema_slow : A;
  rsi : A;
  macd : A;
  macd_signal : A;
  macd_hist : A;
  atr : A;
  upper_bb : A;
  middle_bb : A;
  lower_bb : A;
  price : A
}.

(** [d.values()] *)
Definition values {A : Type} (d : snapshot A) : list A :=
  [ema_fast d; ema_slow d; rsi d; macd d; macd_signal d; macd_hist d;
   atr d; upper_bb d; middle_bb d; lower_bb d; price d].

(** The part of [talib] that the calculator calls.  [MACD] and [BBANDS]
    return three arrays. *)
Class TaLib : Type := {
  EMA : list Q -> Z -> result (list pyfloat);
  RSI : list Q -> Z -> result (list pyfloat);
  MACD : list Q -> Z -> Z -> Z ->
         result (list pyfloat * list pyfloat * list pyfloat);
  ATR : list Q -> list Q -> list Q -> Z -> result (list pyfloat);
  BBANDS : list Q -> Z -> Z -> Z -> Z ->
           result (list pyfloat * list pyfloat * list pyfloat)
}.

Section Calculator.

Context {talib : TaLib}.

(** [calculate_indicators]: [Ok None] is Python's [return None]. *)
Definition calculate_indicators (candles : list candle)
  : result (option (snapshot (option pyfloat))) :=
  if (List.length candles <? 50)%nat then Ok None
  else
    let closes := map close candles in
    let highs := map high candles in
    let lows := map low candles in
    ema_fast_arr <- EMA closes Config.EMA_FAST ;;
    ema_slow_arr <- EMA closes Config.EMA_SLOW ;;
    rsi_arr <- RSI closes Config.RSI_PERIOD ;;
    '(macd_arr, macd_signal_arr, macd_hist_arr) <-
       MACD closes Config.MACD_FAST Config.MACD_SLOW Config.MACD_SIGNAL ;;
    atr_arr <- ATR highs lows closes Config.ATR_PERIOD ;;
    '(upper, middle, lower) <- BBANDS closes 20 2 2 0 ;;
    Ok (Some {|
      ema_fast := last_valid_value (Some ema_fast_arr);
      ema_slow := last_valid_value (Some ema_slow_arr);
      rsi := last_valid_value (Some rsi_arr);
      macd := last_valid_value (Some macd_arr);
      macd_signal := last_valid_value (Some macd_signal_arr);
      macd_hist := last_valid_value (Some macd_hist_arr);
      atr := last_valid_value (Some atr_arr);
      upper_bb := last_valid_value (Some upper);
      middle_bb := last_valid_value (Some middle);
      lower_bb := last_valid_value (Some lower);
      price := if (0 <? List.length closes)%nat
               then option_map Fin (nth_error closes (List.length closes - 1))
               else None
    |}).

End Calculator.

(** ** The signal engine *)

Inductive direction : Type := BUY | SELL | HOLD | ANALYZING | ERROR.

(** The second component of the returned tuple.  The fixed messages are
    constructors; the three formatted messages carry the values they print. *)
Inductive rationale : Type :=
| FailedMarketData        (* "Failed to fetch market data" *)
| NotEnoughData           (* "Not enough data to calculate indicators" *)
| FailedCurrentPrice      (* "Failed to fetch current price" *)
| CalculatingIndicators   (* "Calculating indicators..." *)
| BullishConfluence (ema_fast_15m ema_slow_15m rsi_1h macd_hist_15m : pyfloat)
                    (confidence : Q)
| BearishConfluence (ema_fast_15m ema_slow_15m rsi_1h macd_hist_15m : pyfloat)
                    (confidence : Q)
| Consolidating (rsi_15m middle_bb_15m : pyfloat)
| SystemError (e : string). (* "System error: ..." *)

(** The returned tuple [(signal, strategy, price, tp_price, sl_price)]. *)
Record SignalDecision : Type := mkDecision {
  signal : direction;
  strategy : rationale;
  entry_price : pyfloat;
  tp_price : pyfloat;
  sl_price : pyfloat
}.

(** [any(v is None for v in d.values())] *)
Definition is_None {A : Type} (v : option A) : bool :=
  match v with
  | None => true
  | Some _ => false
  end.

Definition any_none (d : snapshot (option pyfloat)) : bool :=
  existsb is_None (values d).

(** Reading the values of a dictionary for the comparisons below; [None]
    when some value is [None], where Python's comparison would raise
    [TypeError]. *)
Definition defined (d : snapshot (option pyfloat)) : option (snapshot pyfloat) :=
  match ema_fast d, ema_slow d, rsi d, macd d, macd_signal d, macd_hist d,
        atr d, upper_bb d, middle_bb d, lower_bb d, price d with
  | Some a, Some b, Some c, Some e, Some f, Some g,
    Some h, Some i, Some j, Some k, Some l =>
      Some (mkSnapshot a b c e f g h i j k l)
  | _, _, _, _, _, _, _, _, _, _, _ => None
  end.

(** The two counters [(bullish_signals, bearish_signals)]. *)
Definition votes : Type := (Z * Z)%type.

Definition bullish (n : Z) (v : votes) : votes := (fst v + n, snd v)%Z.
Definition bearish (n : Z) (v : votes) : votes := (fst v, snd v + n)%Z.

(** 1. Trend analysis (EMAs) *)
Definition trend_votes (i : snapshot pyfloat) (weight : Z) (v : votes) : votes :=
  if gt (ema_fast i) (ema_slow i) then bullish weight v else bearish weight v.

(** 2. Momentum analysis (RSI) *)
Definition rsi_votes (i : snapshot pyfloat) (v : votes) : votes :=
  if lt (rsi i) Config.RSI_OVERSOLD then bullish 1 v
  else if gt (rsi i) Config.RSI_OVERBOUGHT then bearish 1 v
  else v.

(** 3. MACD analysis *)
Definition macd_votes (i : snapshot pyfloat) (v : votes) : votes :=
  if gt (macd_hist i) (Fin 0) && gt (macd i) (macd_signal i) then bullish 1 v
  else if lt (macd_hist i) (Fin 0) && lt (macd i) (macd_signal i) then bearish 1 v
  else v.

(** 4. Price action (Bollinger Bands) *)
Definition band_votes (i : snapshot pyfloat) (current_price : pyfloat)
                      (v : votes) : votes :=
  if lt current_price (lower_bb i) then bullish 1 v
  else if gt current_price (upper_bb i) then bearish 1 v
  else v.

(** The counters after the four steps, in the order of the source. *)
Definition tally (i15 i1h : snapshot pyfloat) (current_price : pyfloat) : votes :=
  let v := (0, 0)%Z in
  let v := trend_votes i15 1 v in
  let v := trend_votes i1h 2 v in
  let v := rsi_votes i15 v in
  let v := rsi_votes i1h v in
  let v := macd_votes i15 v in
  let v := macd_votes i1h v in
  band_votes i15 current_price v.

Definition confidence_of (bullish_signals bearish_signals : Z) : Q :=
  let total_signals := (bullish_signals + bearish_signals)%Z in
  if (total_signals =? 0)%Z then 0
  else inject_Z (Z.abs (bullish_signals - bearish_signals))
       / inject_Z total_signals * 100.

(** Lines 216-298: from complete dictionaries and the price to the tuple. *)
Definition decide (i15 i1h : snapshot pyfloat) (current_price : pyfloat)
  : SignalDecision :=
  let '(bullish_signals, bearish_signals) := tally i15 i1h current_price in
  let confidence := confidence_of bullish_signals bearish_signals in
  if (bullish_signals >? bearish_signals)%Z && Qltb 30 confidence then
    let atr_value := atr i15 in
    let sl := sub current_price (mul atr_value Config.ATR_SL_MULTIPLIER) in
    let tp := add current_price (mul atr_value Config.ATR_TP_MULTIPLIER) in
    mkDecision BUY
      (BullishConfluence (ema_fast i15) (ema_slow i15) (rsi i1h)
                         (macd_hist i15) confidence)
      current_price tp sl
  else if (bearish_signals >? bullish_signals)%Z && Qltb 30 confidence then
    let atr_value := atr i15 in
    let sl := add current_price (mul atr_value Config.ATR_SL_MULTIPLIER) in
    let tp := sub current_price (mul atr_value Config.ATR_TP_MULTIPLIER) in
    mkDecision SELL
      (BearishConfluence (ema_fast i15) (ema_slow i15) (rsi i1h)
                         (macd_hist i15) confidence)
      current_price tp sl
  else
    mkDecision HOLD (Consolidating (rsi i15) (middle_bb i15))
      current_price current_price current_price.

Section Engine.

Context {talib : TaLib}.

(** The body of the [try] block of [generate_signal]. *)
Definition generate_signal_try (candles_15m candles_1h : list candle)
                               (quote : option Q) : result SignalDecision :=
  if (List.length candles_15m =? 0)%nat || (List.length candles_1h =? 0)%nat then
    Ok (mkDecision ERROR FailedMarketData (Fin 0) (Fin 0) (Fin 0))
  else
    indicators_15m <- calculate_indicators candles_15m ;;
    indicators_1h <- calculate_indicators candles_1h ;;
    match indicators_15m, indicators_1h with
    | Some d15, Some d1h =>
        match quote with
        | None =>
            Ok (mkDecision ERROR FailedCurrentPrice (Fin 0) (Fin 0) (Fin 0))
        | Some p =>
            let current_price := Fin p in
            if any_none d15 || any_none d1h then
              Ok (mkDecision ANALYZING CalculatingIndicators
                             current_price (Fin 0) (Fin 0))
            else
              match defined d15, defined d1h with
              | Some i15, Some i1h => Ok (decide i15 i1h current_price)
              | _, _ => Raise "TypeError"
              end
        end
    | _, _ =>
        Ok (mkDecision ANALYZING NotEnoughData (Fin 0) (Fin 0) (Fin 0))
    end.

(** [generate_signal]: the [except Exception] clause turns whatever was
    raised into an ERROR tuple. *)
Definition generate_signal (candles_15m candles_1h : list candle)
                           (quote : option Q) : SignalDecision :=
  match generate_signal_try candles_15m candles_1h quote with
  | Ok d => d
  | Raise e => mkDecision ERROR (SystemError e) (Fin 0) (Fin 0) (Fin 0)
  end.

End Engine.

(** ** Sample data *)

(** The ten arrays a [talib] stand-in hands back for one candle series. *)
Record series : Type := mkSeries {
  s_ema_fast : list pyfloat;
  s_ema_slow : list pyfloat;
  s_rsi : list pyfloat;
  s_macd : list pyfloat;
  s_macd_signal : list pyfloat;
  s_macd_hist : list pyfloat;
  s_atr : list pyfloat;
  s_upper : list pyfloat;
  s_middle : list pyfloat;
  s_lower : list pyfloat
}.

(** A [talib] that answers from a table indexed by the closing prices. *)
Definition scripted_talib (script : list Q -> series) : TaLib := {|
  EMA closes timeperiod :=
    Ok (if (timeperiod =? Config.EMA_FAST)%Z then s_ema_fast (script closes)
        else s_ema_slow (script closes));
  RSI closes _ := Ok (s_rsi (script closes));
  MACD closes _ _ _ :=
    Ok (s_macd (script closes), s_macd_signal (script closes),
        s_macd_hist (script closes));
  ATR _ _ closes _ := Ok (s_atr (script closes));
  BBANDS closes _ _ _ _ :=
    Ok (s_upper (script closes), s_middle (script closes),
        s_lower (script closes))
|}.

(** A [talib] whose every call raises. *)
Definition failing_talib : TaLib := {|
  EMA _ _ := Raise "EMA failed";
  RSI _ _ := Raise "RSI failed";
  MACD _ _ _ _ := Raise "MACD failed";
  ATR _ _ _ _ := Raise "ATR failed";
  BBANDS _ _ _ _ _ := Raise "BBANDS failed"
|}.

Definition flat_candles (c : Q) (n : nat) : list candle :=
  repeat (mkCandle 0 c c c c 0) n.

(** Bullish on every count: the scenario of the specification. *)
Definition bullish_series : series := {|
  s_ema_fast := [NaN; Fin 1.2650];
  s_ema_slow := [NaN; Fin 1.2600];
  s_rsi := [NaN; Fin 25];
  s_macd := [NaN; Fin 0.0004];
  s_macd_signal := [NaN; Fin 0.0001];
  s_macd_hist := [NaN; Fin 0.0003];
  s_atr := [NaN; Fin 0.0010];
  s_upper := [NaN; Fin 1.2750];
  s_middle := [NaN; Fin 1.2650];
  s_lower := [NaN; Fin 1.2550]
|}.

(** Rising averages, neutral momentum. *)
Definition calm_series : series := {|
  s_ema_fast := [NaN; Fin 1.2650];
  s_ema_slow := [NaN; Fin 1.2600];
  s_rsi := [NaN; Fin 50];
  s_macd := [NaN; Fin 0.0001];
  s_macd_signal := [NaN; Fin 0.0002];
  s_macd_hist := [NaN; Fin 0.0003];
  s_atr := [NaN; Fin 0.0020];
  s_upper := [NaN; Fin 1.2750];
  s_middle := [NaN; Fin 1.2650];
  s_lower := [NaN; Fin 1.2550]
|}.

(** Falling averages, overbought. *)
Definition bearish_series : series := {|
  s_ema_fast := [NaN; Fin 1.2600];
  s_ema_slow := [NaN; Fin 1.2650];
  s_rsi := [NaN; Fin 75];
  s_macd := [NaN; Fin (-0.0004)];
  s_macd_signal := [NaN; Fin (-0.0001)];
  s_macd_hist := [NaN; Fin (-0.0003)];
  s_atr := [NaN; Fin 0.0010];
  s_upper := [NaN; Fin 1.2450];
  s_middle := [NaN; Fin 1.2400];
  s_lower := [NaN; Fin 1.2350]
|}.

(** A series whose RSI never leaves NaN. *)
Definition unstable_series : series := {|
  s_ema_fast := [NaN; Fin 1.2650];
  s_ema_slow := [NaN; Fin 1.2600];
  s_rsi := [NaN; NaN];
  s_macd := [NaN; Fin 0];
  s_macd_signal := [NaN; Fin 0];
  s_macd_hist := [NaN; Fin 0];
  s_atr := [NaN; Fin 0];
  s_upper := [NaN; Fin 1.2650];
  s_middle := [NaN; Fin 1.2650];
  s_lower := [NaN; Fin 1.2650]
|}.

(** Closing price 1 selects the bullish table, 2 the calm one, 3 the
    bearish one, anything else the unstable one. *)
Definition sample_script (closes : list Q) : series :=
  match closes with
  | c :: _ =>
      if Qeq_bool c 1 then bullish_series
      else if Qeq_bool c 2 then calm_series
      else if Qeq_bool c 3 then bearish_series
      else unstable_series
  | [] => unstable_series
  end.

Definition sample_talib : TaLib := scripted_talib sample_script.

Definition snapshot_of (s : series) (last_close : Q) : snapshot pyfloat := {|
  ema_fast := nth 1 (s_ema_fast s) NaN;
  ema_slow := nth 1 (s_ema_slow s) NaN;
  rsi := nth 1 (s_rsi s) NaN;
  macd := nth 1 (s_macd s) NaN;
  macd_signal := nth 1 (s_macd_signal s) NaN;
  macd_hist := nth 1 (s_macd_hist s) NaN;
  atr := nth 1 (s_atr s) NaN;
  upper_bb := nth 1 (s_upper s) NaN;
  middle_bb := nth 1 (s_middle s) NaN;
  lower_bb := nth 1 (s_lower s) NaN;
  price := Fin last_close
|}.

(** ** Predicates of the statements *)

Section Stages.

Context {talib : TaLib}.

(** [i] is the complete dictionary computed from [candles]. *)
Definition complete_snapshot (candles : list candle) (i : snapshot pyfloat)
  : Prop :=
  exists d, calculate_indicators candles = Ok (Some d) /\ defined d = Some i.

End Stages.

(** Every entry of the array is NaN. *)
Definition all_nan (l : list pyfloat) : Prop :=
  Forall (fun x => isnan x = true) l.

(** * The engine in binary64

    The second embedding of the same source, with the arithmetic of the
    program: every float is an IEEE 754 double ([PrimFloat.float], with its
    NaN and infinities), the quote is whatever double
    [float(resp["price"])] produced, the attributes of [Config] are read
    from the store at each call, and [logger.error] appends to a log.
    The embedding above, with exact rationals, is kept for the properties
    that only compare counters. *)

From Stdlib Require PrimFloat.

Set Warnings "-inexact-float".

Module Binary64.

Import PrimFloat.

(** [np.isnan] *)
Definition isnan (x : float) : bool := negb (x =? x)%float.

(** [x < y] and [x > y] *)
Definition lt (x y : float) : bool := (x <? y)%float.
Definition gt (x y : float) : bool := (y <? x)%float.

(** A Python integer as the double it is converted to in a mixed
    operation; exact below 2^53. *)
Fixpoint float_of_pos (p : positive) : float :=
  match p with
  | xH => 1%float
  | xO q => (2 * float_of_pos q)%float
  | xI q => (2 * float_of_pos q + 1)%float
  end.

Definition float_of_int (n : Z) : float :=
  match n with
  | Z0 => 0%float
  | Zpos p => float_of_pos p
  | Zneg p => (- float_of_pos p)%float
  end.

(** The attributes of [class Config] that the engine reads. *)
Record config : Type := mkConfig {
  RISK_REWARD_RATIO : float;
  ATR_PERIOD : Z;
  ATR_SL_MULTIPLIER : float;
  ATR_TP_MULTIPLIER : float;
  EMA_FAST : Z;
  EMA_SLOW : Z;
  RSI_PERIOD : Z;
  RSI_OVERBOUGHT : Z;
  RSI_OVERSOLD : Z;
  MACD_FAST : Z;
  MACD_SLOW : Z;
  MACD_SIGNAL : Z
}.

(** The values the class body gives them; [ATR_TP_MULTIPLIER] is the
    product computed there. *)
Definition Config : config := {|
  RISK_REWARD_RATIO := 1.5;
  ATR_PERIOD := 10;
  ATR_SL_MULTIPLIER := 0.8;
  ATR_TP_MULTIPLIER := (0.8 * 1.5)%float;
  EMA_FAST := 12;
  EMA_SLOW := 26;
  RSI_PERIOD := 14;
  RSI_OVERBOUGHT := 70;
  RSI_OVERSOLD := 30;
  MACD_FAST := 12;
  MACD_SLOW := 26;
  MACD_SIGNAL := 9
|}.

Record candle : Type := mkCandle {
  time : Z;
  open : float;
  high : float;
  low : float;
  close : float;
  volume : float
}.

(** [last_valid_value], as above. *)
Fixpoint scan_back (arr : list float) (n : nat) : option float :=
  match n with
  | O => None
  | S i =>
      match nth_error arr i with
      | Some x => if negb (isnan x) then Some x else scan_back arr i
      | None => None
      end
  end.

Definition last_valid_value (arr : option (list float)) : option float :=
  match arr with
  | None => None
  | Some l =>
      if (List.length l =? 0)%nat then None
      else scan_back l (List.length l)
  end.

(** The part of [talib] that the calculator calls. *)
Class TaLib : Type := {
  EMA : list float -> Z -> result (list float);
  RSI : list float -> Z -> result (list float);
  MACD : list float -> Z -> Z -> Z ->
         result (list float * list float * list float);
  ATR : list float -> list float -> list float -> Z -> result (list float);
  BBANDS : list float -> Z -> Z -> Z -> Z ->
           result (list float * list float * list float)
}.

(** The returned tuple and its second component. *)
Inductive rationale : Type :=
| FailedMarketData
| NotEnoughData
| FailedCurrentPrice
| CalculatingIndicators
| BullishConfluence (ema_fast_15m ema_slow_15m rsi_1h macd_hist_15m : float)
                    (confidence : float)
| BearishConfluence (ema_fast_15m ema_slow_15m rsi_1h macd_hist_15m : float)
                    (confidence : float)
| Consolidating (rsi_15m middle_bb_15m : float)
| SystemError (e : string).

Record SignalDecision : Type := mkDecision {
  signal : direction;
  strategy : rationale;
  entry_price : float;
  tp_price : float;
  sl_price : float
}.

Definition any_none (d : snapshot (option float)) : bool :=
  existsb is_None (values d).

Definition defined (d : snapshot (option float)) : option (snapshot float) :=
  match ema_fast d, ema_slow d, rsi d, macd d, macd_signal d, macd_hist d,
        atr d, upper_bb d, middle_bb d, lower_bb d, price d with
  | Some a, Some b, Some c, Some e, Some f, Some g,
    Some h, Some i, Some j, Some k, Some l =>
      Some (mkSnapshot a b c e f g h i j k l)
  | _, _, _, _, _, _, _, _, _, _, _ => None
  end.

(** 1. Trend analysis (EMAs) *)
Definition trend_votes (i : snapshot float) (weight : Z) (v : votes) : votes :=
  if gt (ema_fast i) (ema_slow i) then bullish weight v else bearish weight v.

(** The module globals a call can see: the attributes of [Config], the
    other globals (the registries of the bot, of some type [G]) and what
    the logger has written. *)
Record store (G : Type) : Type := mkStore {
  cfg : config;
  globals : G;
  log : list string
}.

Section Engine.

Context {talib : TaLib}.

Variable c : config.

(** [calculate_indicators] *)
Definition calculate_indicators (candles : list candle)
  : result (option (snapshot (option float))) :=
  if (List.length candles <? 50)%nat then Ok None
  else
    let closes := map close candles in
    let highs := map high candles in
    let lows := map low candles in
    ema_fast_arr <- EMA closes (EMA_FAST c) ;;
    ema_slow_arr <- EMA closes (EMA_SLOW c) ;;
    rsi_arr <- RSI closes (RSI_PERIOD c) ;;
    '(macd_arr, macd_signal_arr, macd_hist_arr) <-
       MACD closes (MACD_FAST c) (MACD_SLOW c) (MACD_SIGNAL c) ;;
    atr_arr <- ATR highs lows closes (ATR_PERIOD c) ;;
    '(upper, middle, lower) <- BBANDS closes 20 2 2 0 ;;
    Ok (Some {|
      ema_fast := last_valid_value (Some ema_fast_arr);
      ema_slow := last_valid_value (Some ema_slow_arr);
      rsi := last_valid_value (Some rsi_arr);
      macd := last_valid_value (Some macd_arr);
      macd_signal := last_valid_value (Some macd_signal_arr);
      macd_hist := last_valid_value (Some macd_hist_arr);
      atr := last_valid_value (Some atr_arr);
      upper_bb := last_valid_value (Some upper);
      middle_bb := last_valid_value (Some middle);
      lower_bb := last_valid_value (Some lower);
      price := if (0 <? List.length closes)%nat
               then nth_error closes (List.length closes - 1)
               else None
    |}).

(** 2. Momentum analysis (RSI) *)
Definition rsi_votes (i : snapshot float) (v : votes) : votes :=
  if lt (rsi i) (float_of_int (RSI_OVERSOLD c)) then bullish 1 v
  else if gt (rsi i) (float_of_int (RSI_OVERBOUGHT c)) then bearish 1 v
  else v.

(** 3. MACD analysis *)
Definition macd_votes (i : snapshot float) (v : votes) : votes :=
  if gt (macd_hist i) 0 && gt (macd i) (macd_signal i) then bullish 1 v
  else if lt (macd_hist i) 0 && lt (macd i) (macd_signal i) then bearish 1 v
  else v.

(** 4. Price action (Bollinger Bands) *)
Definition band_votes (i : snapshot float) (current_price : float)
                      (v : votes) : votes :=
  if lt current_price (lower_bb i) then bullish 1 v
  else if gt current_price (upper_bb i) then bearish 1 v
  else v.

Definition tally (i15 i1h : snapshot float) (current_price : float) : votes :=
  let v := (0, 0)%Z in
  let v := trend_votes i15 1 v in
  let v := trend_votes i1h 2 v in
  let v := rsi_votes i15 v in
  let v := rsi_votes i1h v in
  let v := macd_votes i15 v in
  let v := macd_votes i1h v in
  band_votes i15 current_price v.

(** [abs(b - s) / total * 100]: the quotient of two integers is the
    double nearest to it, the product with 100 is a double product. *)
Definition confidence_of (bullish_signals bearish_signals : Z) : float :=
  let total_signals := (bullish_signals + bearish_signals)%Z in
  if (total_signals =? 0)%Z then 0%float
  else (float_of_int (Z.abs (bullish_signals - bearish_signals))
        / float_of_int total_signals * 100)%float.

(** Lines 216-298 *)
Definition decide (i15 i1h : snapshot float) (current_price : float)
  : SignalDecision :=
  let '(bullish_signals, bearish_signals) := tally i15 i1h current_price in
  let confidence := confidence_of bullish_signals bearish_signals in
  if (bullish_signals >? bearish_signals)%Z && gt confidence 30 then
    let atr_value := atr i15 in
    let sl := (current_price - atr_value * ATR_SL_MULTIPLIER c)%float in
    let tp := (current_price + atr_value * ATR_TP_MULTIPLIER c)%float in
    mkDecision BUY
      (BullishConfluence (ema_fast i15) (ema_slow i15) (rsi i1h)
                         (macd_hist i15) confidence)
      current_price tp sl
  else if (bearish_signals >? bullish_signals)%Z && gt confidence 30 then
    let atr_value := atr i15 in
    let sl := (current_price + atr_value * ATR_SL_MULTIPLIER c)%float in
    let tp := (current_price - atr_value * ATR_TP_MULTIPLIER c)%float in
    mkDecision SELL
      (BearishConfluence (ema_fast i15) (ema_slow i15) (rsi i1h)
                         (macd_hist i15) confidence)
      current_price tp sl
  else
    mkDecision HOLD (Consolidating (rsi i15) (middle_bb i15))
      current_price current_price current_price.

(** The body of the [try] block of [generate_signal]. *)
Definition generate_signal_try (candles_15m candles_1h : list candle)
                               (quote : option float)
  : result SignalDecision :=
  if (List.length candles_15m =? 0)%nat || (List.length candles_1h =? 0)%nat then
    Ok (mkDecision ERROR FailedMarketData 0 0 0)
  else
    indicators_15m <- calculate_indicators candles_15m ;;
    indicators_1h <- calculate_indicators candles_1h ;;
    match indicators_15m, indicators_1h with
    | Some d15, Some d1h =>
        match quote with
        | None => Ok (mkDecision ERROR FailedCurrentPrice 0 0 0)
        | Some current_price =>
            if any_none d15 || any_none d1h then
              Ok (mkDecision ANALYZING CalculatingIndicators current_price 0 0)
            else
              match defined d15, defined d1h with
              | Some i15, Some i1h => Ok (decide i15 i1h current_price)
              | _, _ => Raise "TypeError"
              end
        end
    | _, _ => Ok (mkDecision ANALYZING NotEnoughData 0 0 0)
    end.

(** [i] is the complete dictionary computed from [candles]. *)
Definition complete_snapshot (candles : list candle) (i : snapshot float)
  : Prop :=
  exists d, calculate_indicators candles = Ok (Some d) /\ defined d = Some i.

End Engine.

(** What one call reads from the outside: the two candle lists and the
    quote. *)
Record feed : Type := mkFeed {
  candles_15m : list candle;
  candles_1h : list candle;
  quote : option float
}.

Section Calls.

Context {talib : TaLib} {G : Type}.

(** [generate_signal()] in a store: the store it leaves and the tuple it
    returns.  It reads [Config], writes nothing but the log line of the
    [except] clause, and keeps its counters in local variables. *)
Definition generate_signal (s : store G) (f : feed)
  : store G * SignalDecision :=
  match generate_signal_try (cfg s) (candles_15m f) (candles_1h f) (quote f) with
  | Ok d => (s, d)
  | Raise e =>
      (mkStore (cfg s) (globals s)
               (log s ++ [("Signal generation error: " ++ e)%string]),
       mkDecision ERROR (SystemError e) 0 0 0)
  end.

(** The store after a history of calls. *)
Fixpoint after_calls (s : store G) (history : list feed) : store G :=
  match history with
  | [] => s
  | f :: rest => after_calls (fst (generate_signal s f)) rest
  end.

End Calls.

(** Sample data: a [talib] that answers with the same ten arrays whatever
    the candles. *)
Record series : Type := mkSeries {
  s_ema_fast : list float;
  s_ema_slow : list float;
  s_rsi : list float;
  s_macd : list float;
  s_macd_signal : list float;
  s_macd_hist : list float;
  s_atr : list float;
  s_upper : list float;
  s_middle : list float;
  s_lower : list float
}.

Definition scripted_talib (s : series) : TaLib := {|
  EMA closes timeperiod :=
    Ok (if (timeperiod =? 12)%Z then s_ema_fast s else s_ema_slow s);
  RSI closes _ := Ok (s_rsi s);
  MACD closes _ _ _ := Ok (s_macd s, s_macd_signal s, s_macd_hist s);
  ATR _ _ closes _ := Ok (s_atr s);
  BBANDS closes _ _ _ _ := Ok (s_upper s, s_middle s, s_lower s)
|}.

Definition flat_candles (c : float) (n : nat) : list candle :=
  repeat (mkCandle 0 c c c c 0) n.

(** Rising averages on a quiet market around [mid], with the given ATR. *)
Definition rising_series (mid atr_value : float) : series := {|
  s_ema_fast := [nan; (mid + 0.002)%float];
  s_ema_slow := [nan; mid];
  s_rsi := [nan; 50%float];
  s_macd := [nan; 0.0004%float];
  s_macd_signal := [nan; 0.0001%float];
  s_macd_hist := [nan; 0.0003%float];
  s_atr := [nan; atr_value];
  s_upper := [nan; (mid + 0.01)%float];
  s_middle := [nan; mid];
  s_lower := [nan; (mid - 0.01)%float]
|}.


Definition snapshot_of (s : series) (last_close : float) : snapshot float := {|
  ema_fast := nth 1 (s_ema_fast s) nan;
  ema_slow := nth 1 (s_ema_slow s) nan;
  rsi := nth 1 (s_rsi s) nan;
  macd := nth 1 (s_macd s) nan;
  macd_signal := nth 1 (s_macd_signal s) nan;
  macd_hist := nth 1 (s_macd_hist s) nan;
  atr := nth 1 (s_atr s) nan;
  upper_bb := nth 1 (s_upper s) nan;
  middle_bb := nth 1 (s_middle s) nan;
  lower_bb := nth 1 (s_lower s) nan;
  price := last_close
|}.

Definition sample_feed (c : float) (q : option float) : feed :=
  mkFeed (flat_candles c 50) (flat_candles c 50) q.

Definition fresh_store : store unit := mkStore Config tt [].

End Binary64.


(** * Properties *)

(** ** Facts about comparisons *)

Lemma Qltb_iff (a b : Q) : Qltb a b = true <-> a < b.
Proof.
  unfold Qltb. rewrite negb_true_iff.
  split; intro H.
  - apply Qnot_le_lt. intro L. apply Qle_bool_iff in L. congruence.
  - destruct (Qle_bool b a) eqn:E; trivial.
    apply Qle_bool_iff in E. exfalso. apply (Qlt_not_le _ _ H E).
Qed.


Lemma pyfloat_lt_Fin (x y : pyfloat) :
  lt x y = true <-> exists a b, x = Fin a /\ y = Fin b /\ a < b.
Proof.
  split.
  - destruct x as [|a], y as [|b]; simpl; try discriminate.
    intro H. exists a, b. repeat split. now apply Qltb_iff.
  - intros (a & b & -> & -> & H). simpl. now apply Qltb_iff.
Qed.

(** ** The last-valid-value lookup *)

Section LastValid.

(** Indices at or beyond [n] are never read. *)
Lemma scan_back_app (l r : list pyfloat) (n : nat) :
  (n <= List.length l)%nat -> scan_back (l ++ r) n = scan_back l n.
Proof.
  induction n as [|i IH]; intro Hn; simpl; trivial.
  rewrite nth_error_app1 by lia.
  destruct (nth_error l i) as [x|]; trivial.
  destruct (isnan x); simpl; trivial.
  apply IH. lia.
Qed.

(** One turn of the loop, seen from the end of the array. *)
Lemma scan_back_snoc (l : list pyfloat) (a : pyfloat) :
  scan_back (l ++ [a]) (List.length (l ++ [a])) =
  if isnan a then scan_back l (List.length l) else Some a.
Proof.
  rewrite length_app. simpl. rewrite Nat.add_1_r. simpl.
  rewrite nth_error_app2 by lia. rewrite Nat.sub_diag. simpl.
  destruct (isnan a); simpl; trivial.
  apply scan_back_app. lia.
Qed.

Lemma scan_back_all_nan (l : list pyfloat) :
  scan_back l (List.length l) = None <-> all_nan l.
Proof.
  induction l as [|a l IH] using rev_ind.
  - simpl. split; [constructor | trivial].
  - rewrite scan_back_snoc. unfold all_nan in *. rewrite Forall_app.
    destruct (isnan a) eqn:E.
    + rewrite IH. split.
      * intro H. split; trivial. constructor; [exact E | constructor].
      * tauto.
    + split; [discriminate|].
      intros [_ H]. inversion H; subst. congruence.
Qed.

Lemma scan_back_last (l : list pyfloat) (x : pyfloat) :
  scan_back l (List.length l) = Some x ->
  isnan x = false /\
  exists before after, l = before ++ x :: after /\ all_nan after.
Proof.
  induction l as [|a l IH] using rev_ind.
  - discriminate.
  - rewrite scan_back_snoc. destruct (isnan a) eqn:E.
    + intro H. destruct (IH H) as (Hx & before & after & -> & Hall).
      split; trivial.
      exists before, (after ++ [a]). split.
      * now rewrite <- app_assoc.
      * apply Forall_app. split; trivial. constructor; [exact E | constructor].
    + intro H. inversion H; subst x. split; trivial.
      exists l, []. split; [reflexivity | constructor].
Qed.

Lemma last_valid_value_Some (l : list pyfloat) :
  last_valid_value (Some l) = scan_back l (List.length l).
Proof.
  unfold last_valid_value. destruct l; reflexivity.
Qed.

(** C4: the lookup returns [None] exactly for an absent array, an empty
    one, or one with only NaN entries; any value it returns is not NaN,
    occurs in the array, and every entry after it is NaN. *)
Theorem last_valid_value_spec (arr : option (list pyfloat)) :
  (last_valid_value arr = None <->
     arr = None \/ arr = Some [] \/ exists l, arr = Some l /\ all_nan l)
  /\
  (forall x, last_valid_value arr = Some x ->
     isnan x = false /\
     exists before after,
       arr = Some (before ++ x :: after) /\ all_nan after).
Proof.
  destruct arr as [l|].
  - rewrite last_valid_value_Some. split.
    + rewrite scan_back_all_nan. split.
      * intro H. right. right. now exists l.
      * intros [H | [H | (l' & H & Hall)]]; try discriminate.
        -- inversion H. constructor.
        -- now inversion H.
    + intros x H. destruct (scan_back_last l H) as (Hx & b & a & -> & Ha).
      split; trivial. now exists b, a.
  - split.
    + split; [now left | reflexivity].
    + discriminate.
Qed.

End LastValid.

Example last_valid_value_tail_nan :
  last_valid_value (Some [NaN; Fin 1.1; Fin 1.2; NaN; NaN]) = Some (Fin 1.2).
Proof. reflexivity. Qed.

Example last_valid_value_only_nan :
  last_valid_value (Some [NaN; NaN; NaN]) = None.
Proof. reflexivity. Qed.

(** ** Facts about the stages *)

Ltac split_ifs :=
  repeat match goal with
         | |- context [if ?c then _ else _] => destruct c eqn:?
         end.

Lemma any_none_defined (d : snapshot (option pyfloat)) :
  any_none d = false -> exists i, defined d = Some i.
Proof.
  destruct d as [a b c e f g h i j k l].
  unfold any_none, values, defined; simpl.
  destruct a; simpl; [|discriminate].
  destruct b; simpl; [|discriminate].
  destruct c; simpl; [|discriminate].
  destruct e; simpl; [|discriminate].
  destruct f; simpl; [|discriminate].
  destruct g; simpl; [|discriminate].
  destruct h; simpl; [|discriminate].
  destruct i; simpl; [|discriminate].
  destruct j; simpl; [|discriminate].
  destruct k; simpl; [|discriminate].
  destruct l; simpl; [|discriminate].
  intros _. eexists. reflexivity.
Qed.

Lemma defined_any_none (d : snapshot (option pyfloat)) (i : snapshot pyfloat) :
  defined d = Some i -> any_none d = false.
Proof.
  destruct d as [a b c e f g h i' j k l].
  unfold any_none, values, defined; simpl.
  destruct a; [|discriminate].
  destruct b; [|discriminate].
  destruct c; [|discriminate].
  destruct e; [|discriminate].
  destruct f; [|discriminate].
  destruct g; [|discriminate].
  destruct h; [|discriminate].
  destruct i'; [|discriminate].
  destruct j; [|discriminate].
  destruct k; [|discriminate].
  destruct l; [|discriminate].
  reflexivity.
Qed.

Section StageFacts.

Context {talib : TaLib}.

Lemma calculate_indicators_short (candles : list candle) :
  (List.length candles < 50)%nat -> calculate_indicators candles = Ok None.
Proof.
  intro H. unfold calculate_indicators.
  apply Nat.ltb_lt in H. now rewrite H.
Qed.

Lemma calculate_indicators_Some_length
      (candles : list candle) (d : snapshot (option pyfloat)) :
  calculate_indicators candles = Ok (Some d) ->
  (50 <= List.length candles)%nat.
Proof.
  intro H. destruct (Nat.lt_ge_cases (List.length candles) 50) as [L|L]; trivial.
  rewrite (calculate_indicators_short _ L) in H. discriminate.
Qed.

Lemma calculate_indicators_long
      (candles : list candle) :
  (50 <= List.length candles)%nat ->
  (exists d, calculate_indicators candles = Ok (Some d)) \/
  (exists e, calculate_indicators candles = Raise e).
Proof.
  intro H. unfold calculate_indicators.
  apply Nat.ltb_ge in H. rewrite H.
  destruct (EMA _ Config.EMA_FAST); simpl; [|right; eauto].
  destruct (EMA _ Config.EMA_SLOW); simpl; [|right; eauto].
  destruct (RSI _ _); simpl; [|right; eauto].
  destruct (MACD _ _ _ _) as [[[? ?] ?]|]; simpl; [|right; eauto].
  destruct (ATR _ _ _ _); simpl; [|right; eauto].
  destruct (BBANDS _ _ _ _ _) as [[[? ?] ?]|]; simpl; [|right; eauto].
  left. eauto.
Qed.

Lemma nonempty_length (A : Type) (l : list A) :
  l <> [] -> (List.length l =? 0)%nat = false.
Proof.
  destruct l; [congruence | reflexivity].
Qed.

Lemma last_valid_value_not_nan (arr : option (list pyfloat)) (x : pyfloat) :
  last_valid_value arr = Some x -> isnan x = false.
Proof.
  destruct arr as [l|]; [|discriminate].
  rewrite last_valid_value_Some. intro H.
  now destruct (scan_back_last l H).
Qed.

(** No value of a computed dictionary is NaN. *)
Lemma calculate_indicators_no_nan
      (candles : list candle) (d : snapshot (option pyfloat)) (x : pyfloat) :
  calculate_indicators candles = Ok (Some d) ->
  In (Some x) (values d) -> isnan x = false.
Proof.
  unfold calculate_indicators.
  destruct (List.length candles <? 50)%nat; [discriminate|].
  destruct (EMA _ Config.EMA_FAST); cbn [bind]; [|discriminate].
  destruct (EMA _ Config.EMA_SLOW); cbn [bind]; [|discriminate].
  destruct (RSI _ _); cbn [bind]; [|discriminate].
  destruct (MACD _ _ _ _) as [[[? ?] ?]|]; cbn [bind]; [|discriminate].
  destruct (ATR _ _ _ _); cbn [bind]; [|discriminate].
  destruct (BBANDS _ _ _ _ _) as [[[? ?] ?]|]; cbn [bind]; [|discriminate].
  intro H. injection H as <-. unfold values;
    cbn [In ema_fast ema_slow rsi macd macd_signal macd_hist atr upper_bb
         middle_bb lower_bb price].
  intros [H | [H | [H | [H | [H | [H | [H | [H | [H | [H | [H | []]]]]]]]]]]];
    try (match type of H with
         | context [scan_back ?l _] =>
             apply (@last_valid_value_not_nan (Some l) x); exact H
         end).
  destruct (0 <? _)%nat; [|discriminate].
  destruct (nth_error _ _); [|discriminate].
  inversion H. reflexivity.
Qed.

(** With both dictionaries complete and a quote at hand, the engine is
    the voting stage. *)
Lemma generate_signal_complete
      (candles_15m candles_1h : list candle)
      (i15 i1h : snapshot pyfloat) (p : Q) :
  complete_snapshot candles_15m i15 ->
  complete_snapshot candles_1h i1h ->
  generate_signal candles_15m candles_1h (Some p) = decide i15 i1h (Fin p).
Proof.
  intros (d15 & C15 & D15) (d1h & C1h & D1h).
  unfold generate_signal, generate_signal_try.
  pose proof (calculate_indicators_Some_length _ C15) as L15.
  pose proof (calculate_indicators_Some_length _ C1h) as L1h.
  destruct (List.length candles_15m =? 0)%nat eqn:E15;
    [apply Nat.eqb_eq in E15; lia|].
  destruct (List.length candles_1h =? 0)%nat eqn:E1h;
    [apply Nat.eqb_eq in E1h; lia|].
  simpl. rewrite C15, C1h. simpl.
  rewrite (defined_any_none _ D15), (defined_any_none _ D1h). simpl.
  now rewrite D15, D1h.
Qed.

End StageFacts.

(** The counters: each step adds to one side at most, the trend steps to
    exactly one. *)
Lemma tally_bounds (i15 i1h : snapshot pyfloat) (p : pyfloat) :
  (0 <= fst (tally i15 i1h p) /\ 0 <= snd (tally i15 i1h p) /\
   3 <= fst (tally i15 i1h p) + snd (tally i15 i1h p) <= 8)%Z.
Proof.
  unfold tally, band_votes, macd_votes, rsi_votes, trend_votes, bullish, bearish.
  split_ifs; simpl; lia.
Qed.

Lemma confidence_of_range (b s : Z) :
  (0 <= b)%Z -> (0 <= s)%Z ->
  0 <= confidence_of b s /\ confidence_of b s <= 100.
Proof.
  intros Hb Hs. unfold confidence_of.
  destruct (b + s =? 0)%Z eqn:E.
  - split; [apply Qle_refl | discriminate].
  - apply Z.eqb_neq in E.
    assert (Ht : (0 < b + s)%Z) by lia.
    assert (Ha : (0 <= Z.abs (b - s) <= b + s)%Z) by lia.
    set (a := Z.abs (b - s)) in *. set (t := (b + s)%Z) in *.
    assert (Qt : 0 < inject_Z t) by (unfold Qlt; simpl; lia).
    assert (Qa0 : 0 <= inject_Z a) by (unfold Qle; simpl; lia).
    assert (Qat : inject_Z a <= inject_Z t) by (unfold Qle; simpl; lia).
    split.
    + apply Qmult_le_0_compat; [|discriminate].
      apply Qle_shift_div_l; [exact Qt|]. rewrite Qmult_0_l. exact Qa0.
    + setoid_replace 100 with (1 * 100) at 2 by reflexivity.
      apply Qmult_le_compat_r; [|discriminate].
      apply Qle_shift_div_r; [exact Qt|]. rewrite Qmult_1_l. exact Qat.
Qed.

Lemma confidence_of_tie (b : Z) : confidence_of b b == 0.
Proof.
  unfold confidence_of. destruct (b + b =? 0)%Z; [reflexivity|].
  rewrite Z.sub_diag. simpl. unfold Qdiv. now rewrite !Qmult_0_l.
Qed.

Lemma defined_atr (d : snapshot (option pyfloat)) (i : snapshot pyfloat) :
  defined d = Some i -> atr d = Some (atr i).
Proof.
  destruct d as [a b c e f g h i' j k l]. unfold defined; simpl.
  destruct a, b, c, e, f, g, h, i', j, k, l; try discriminate.
  intro H. inversion H. reflexivity.
Qed.

Lemma inject_Z_abs_sub (b s : Z) :
  inject_Z (Z.abs (b - s)) == Qabs (inject_Z b - inject_Z s).
Proof.
  assert (E : inject_Z b - inject_Z s == inject_Z (b - s)).
  { unfold Z.sub, Qminus. now rewrite inject_Z_plus, inject_Z_opp. }
  rewrite E. reflexivity.
Qed.

(** The price levels around a positive ATR. *)
Lemma levels_ordered (p a : Q) :
  0 < a ->
  p - a * 0.8 < p /\ p < p + a * (0.8 * 1.5) /\
  p - a * (0.8 * 1.5) < p /\ p < p + a * 0.8.
Proof.
  intro H. repeat split; lra.
Qed.

(** ** The voting stage *)

Section Voting.

Context {talib : TaLib}.

(** C2: the confidence is |bullish - bearish| / (bullish + bearish) x 100,
    and 0 without votes; it lies between 0 and 100; on a tie it is 0 and
    the engine answers neither BUY nor SELL. *)
Theorem confidence_formula_and_tie
        (candles_15m candles_1h : list candle)
        (i15 i1h : snapshot pyfloat) (p : Q) :
  complete_snapshot candles_15m i15 ->
  complete_snapshot candles_1h i1h ->
  let b := fst (tally i15 i1h (Fin p)) in
  let s := snd (tally i15 i1h (Fin p)) in
  let c := confidence_of b s in
  let d := generate_signal candles_15m candles_1h (Some p) in
  ((b + s = 0)%Z -> c == 0) /\
  ((b + s <> 0)%Z ->
     c == Qabs (inject_Z b - inject_Z s) / (inject_Z b + inject_Z s) * 100) /\
  (0 <= c /\ c <= 100) /\
  (b = s -> c == 0 /\ signal d <> BUY /\ signal d <> SELL).
Proof.
  intros C15 C1h b s c d.
  destruct (tally_bounds i15 i1h (Fin p)) as (Hb & Hs & Ht).
  fold b s in Hb, Hs, Ht.
  repeat split.
  - intro H. subst c. unfold confidence_of.
    apply Z.eqb_eq in H. now rewrite H.
  - intro H. subst c. unfold confidence_of.
    apply Z.eqb_neq in H. rewrite H.
    now rewrite inject_Z_abs_sub, inject_Z_plus.
  - apply confidence_of_range; assumption.
  - apply confidence_of_range; assumption.
  - subst c. rewrite <- H. apply confidence_of_tie.
  - subst d. rewrite (generate_signal_complete p C15 C1h).
    unfold decide. fold b s in H.
    rewrite (surjective_pairing (tally i15 i1h (Fin p))). fold b s.
    rewrite H. rewrite Z.gtb_ltb, Z.ltb_irrefl. simpl.
    discriminate.
  - subst d. rewrite (generate_signal_complete p C15 C1h).
    unfold decide. fold b s in H.
    rewrite (surjective_pairing (tally i15 i1h (Fin p))). fold b s.
    rewrite H. rewrite Z.gtb_ltb, Z.ltb_irrefl. simpl.
    discriminate.
Qed.

(** C7: with complete dictionaries, when neither the BUY condition nor
    the SELL condition holds the engine answers HOLD with entry, target
    and stop all at the current price. *)
Theorem hold_without_majority
        (candles_15m candles_1h : list candle)
        (i15 i1h : snapshot pyfloat) (p : Q) :
  complete_snapshot candles_15m i15 ->
  complete_snapshot candles_1h i1h ->
  let b := fst (tally i15 i1h (Fin p)) in
  let s := snd (tally i15 i1h (Fin p)) in
  ~ ((b > s)%Z /\ 30 < confidence_of b s) ->
  ~ ((s > b)%Z /\ 30 < confidence_of b s) ->
  let d := generate_signal candles_15m candles_1h (Some p) in
  signal d = HOLD /\
  entry_price d = Fin p /\ tp_price d = Fin p /\ sl_price d = Fin p.
Proof.
  intros C15 C1h b s Hbuy Hsell d. subst d.
  rewrite (generate_signal_complete p C15 C1h).
  unfold decide. rewrite (surjective_pairing (tally i15 i1h (Fin p))).
  fold b s.
  destruct ((b >? s)%Z && Qltb 30 (confidence_of b s)) eqn:E1.
  - exfalso. apply Hbuy. apply andb_true_iff in E1. destruct E1 as [E1 E2].
    split; [apply Z.lt_gt, Z.gtb_lt, E1 | apply Qltb_iff, E2].
  - destruct ((s >? b)%Z && Qltb 30 (confidence_of b s)) eqn:E2.
    + exfalso. apply Hsell. apply andb_true_iff in E2. destruct E2 as [E2 E3].
      split; [apply Z.lt_gt, Z.gtb_lt, E2 | apply Qltb_iff, E3].
    + simpl. repeat split.
Qed.

End Voting.

(** ** The calculator and the outcomes of the engine *)

Section Outcomes.

Context {talib : TaLib}.

(** C3: fewer than 50 candles give [None] for the whole dictionary: no
    exception and no partial dictionary. *)
Theorem short_history_unavailable (candles : list candle) :
  (List.length candles < 50)%nat ->
  calculate_indicators candles = Ok None.
Proof.
  apply calculate_indicators_short.
Qed.

(** Whatever is raised inside the [try] block was raised by [talib]. *)
Lemma generate_signal_try_raise
      (candles_15m candles_1h : list candle) (quote : option Q) (e : string) :
  generate_signal_try candles_15m candles_1h quote = Raise e ->
  calculate_indicators candles_15m = Raise e \/
  calculate_indicators candles_1h = Raise e.
Proof.
  unfold generate_signal_try.
  destruct (_ || _); [discriminate|].
  destruct (calculate_indicators candles_15m) as [o15|e15]; simpl;
    [|intro H; left; congruence].
  destruct (calculate_indicators candles_1h) as [o1h|e1h]; simpl;
    [|intro H; right; congruence].
  destruct o15 as [d15|], o1h as [d1h|]; try discriminate.
  destruct quote as [p|]; [|discriminate].
  destruct (any_none d15) eqn:A15; [discriminate|].
  destruct (any_none d1h) eqn:A1h; [discriminate|]. simpl.
  destruct (any_none_defined _ A15) as [i15 ->].
  destruct (any_none_defined _ A1h) as [i1h ->].
  discriminate.
Qed.

(** C5, amended: no candles for a timeframe, or no quote once both
    timeframes have their 50 candles, or an exception inside the engine,
    all end in ERROR with entry, target and stop at 0. *)
Theorem error_outcome
        (candles_15m candles_1h : list candle) (quote : option Q) :
  candles_15m = [] \/ candles_1h = [] \/
  (quote = None /\
   (50 <= List.length candles_15m)%nat /\ (50 <= List.length candles_1h)%nat) \/
  (exists e, generate_signal_try candles_15m candles_1h quote = Raise e) ->
  let d := generate_signal candles_15m candles_1h quote in
  signal d = ERROR /\
  entry_price d = Fin 0 /\ tp_price d = Fin 0 /\ sl_price d = Fin 0.
Proof.
  intros H d. subst d. unfold generate_signal.
  destruct H as [-> | [-> | [(-> & L15 & L1h) | (e & ->)]]].
  - simpl. repeat split.
  - unfold generate_signal_try. rewrite orb_true_r. repeat split.
  - unfold generate_signal_try.
    destruct (List.length candles_15m =? 0)%nat eqn:E15;
      [apply Nat.eqb_eq in E15; lia|].
    destruct (List.length candles_1h =? 0)%nat eqn:E1h;
      [apply Nat.eqb_eq in E1h; lia|].
    simpl.
    destruct (calculate_indicators_long _ L15) as [(d15 & ->) | (e & ->)];
      simpl; [|repeat split].
    destruct (calculate_indicators_long _ L1h) as [(d1h & ->) | (e & ->)];
      simpl; repeat split.
  - repeat split.
Qed.

(** C6, amended: when both timeframes have candles and the calculator
    returns for both, the engine answers ANALYZING if a dictionary is
    [None], and also if a quote was obtained and a dictionary has an
    undefined value. *)
Theorem analyzing_outcome
        (candles_15m candles_1h : list candle) (quote : option Q)
        (o15 o1h : option (snapshot (option pyfloat))) :
  candles_15m <> [] -> candles_1h <> [] ->
  calculate_indicators candles_15m = Ok o15 ->
  calculate_indicators candles_1h = Ok o1h ->
  o15 = None \/ o1h = None \/
  (quote <> None /\
   exists d15 d1h, o15 = Some d15 /\ o1h = Some d1h /\
                   (any_none d15 = true \/ any_none d1h = true)) ->
  let d := generate_signal candles_15m candles_1h quote in
  signal d = ANALYZING /\
  signal d <> ERROR /\ signal d <> BUY /\ signal d <> SELL /\ signal d <> HOLD.
Proof.
  intros N15 N1h C15 C1h H d.
  assert (G : signal d = ANALYZING).
  { subst d. unfold generate_signal, generate_signal_try.
    rewrite (nonempty_length N15), (nonempty_length N1h). simpl.
    rewrite C15, C1h. simpl.
    destruct H as [-> | [-> | (Hq & d15 & d1h & -> & -> & Hany)]].
    - reflexivity.
    - destruct o15; reflexivity.
    - destruct quote as [p|]; [|congruence].
      destruct Hany as [-> | ->]; [|rewrite orb_true_r]; reflexivity. }
  rewrite G. repeat split; discriminate.
Qed.

(** With exact arithmetic and a positive ATR on the fast timeframe, a BUY
    has stop < entry < target and a SELL has target < entry < stop. *)
Lemma exact_levels_in_order
        (candles_15m candles_1h : list candle) (quote : option Q)
        (d15 : snapshot (option pyfloat)) (a : pyfloat) :
  calculate_indicators candles_15m = Ok (Some d15) ->
  atr d15 = Some a ->
  lt (Fin 0) a = true ->
  let d := generate_signal candles_15m candles_1h quote in
  (signal d = BUY ->
     lt (sl_price d) (entry_price d) = true /\
     lt (entry_price d) (tp_price d) = true) /\
  (signal d = SELL ->
     lt (tp_price d) (entry_price d) = true /\
     lt (entry_price d) (sl_price d) = true).
Proof.
  intros C15 Ha Hpos d. subst d.
  unfold generate_signal, generate_signal_try.
  destruct (_ || _); [split; discriminate|].
  rewrite C15. simpl.
  destruct (calculate_indicators candles_1h) as [o1h|e]; simpl;
    [|split; discriminate].
  destruct o1h as [d1h|]; [|split; discriminate].
  destruct quote as [p|]; [|split; discriminate].
  destruct (any_none d15 || any_none d1h); [split; discriminate|].
  destruct (defined d15) as [i15|] eqn:D15; [|split; discriminate].
  destruct (defined d1h) as [i1h|]; [|split; discriminate].
  apply defined_atr in D15. rewrite D15 in Ha. inversion Ha; subst a.
  apply pyfloat_lt_Fin in Hpos. destruct Hpos as (z & q & Hz & Hq & Hlt).
  inversion Hz; subst z.
  destruct (levels_ordered p Hlt) as (L1 & L2 & L3 & L4).
  unfold decide. destruct (tally i15 i1h (Fin p)) as [b s].
  rewrite Hq.
  destruct (_ && _); simpl.
  - split; [intros _|discriminate].
    split; apply Qltb_iff; assumption.
  - destruct (_ && _); simpl.
    + split; [discriminate|intros _].
      split; apply Qltb_iff; assumption.
    + split; discriminate.
Qed.

End Outcomes.


(** ** The claims on sample data *)

Lemma sample_complete (c : Q) (n : nat) (i : snapshot pyfloat) :
  @calculate_indicators sample_talib (flat_candles c n) =
    Ok (Some (mkSnapshot (Some (ema_fast i)) (Some (ema_slow i)) (Some (rsi i))
                         (Some (macd i)) (Some (macd_signal i))
                         (Some (macd_hist i)) (Some (atr i))
                         (Some (upper_bb i)) (Some (middle_bb i))
                         (Some (lower_bb i)) (Some (price i)))) ->
  @complete_snapshot sample_talib (flat_candles c n) i.
Proof.
  intro H. eexists. split; [exact H|]. destruct i; reflexivity.
Defined.

Lemma confidence_formula_and_tie_witness :
  let i15 := snapshot_of bearish_series 3 in
  let i1h := snapshot_of bullish_series 1 in
  let b := fst (tally i15 i1h (Fin 1.25)) in
  let s := snd (tally i15 i1h (Fin 1.25)) in
  let d := @generate_signal sample_talib
             (flat_candles 3 50) (flat_candles 1 50) (Some 1.25) in
  b = 4%Z /\ s = 4%Z /\ confidence_of b s == 0 /\
  signal d <> BUY /\ signal d <> SELL.
Proof.
  intros i15 i1h b s d.
  assert (C15 : @complete_snapshot sample_talib (flat_candles 3 50) i15).
  { apply sample_complete. vm_compute. reflexivity. }
  assert (C1h : @complete_snapshot sample_talib (flat_candles 1 50) i1h).
  { apply sample_complete. vm_compute. reflexivity. }
  destruct (confidence_formula_and_tie 1.25 C15 C1h) as (_ & _ & _ & Htie).
  split; [reflexivity|]. split; [reflexivity|].
  apply Htie. reflexivity.
Defined.

Lemma short_history_unavailable_witness :
  @calculate_indicators sample_talib (flat_candles 1 49) = Ok None.
Proof.
  apply (@short_history_unavailable sample_talib (flat_candles 1 49)).
  vm_compute. reflexivity.
Defined.

Lemma error_outcome_witness :
  let d := @generate_signal sample_talib
             (flat_candles 1 50) (flat_candles 2 50) None in
  signal d = ERROR /\
  entry_price d = Fin 0 /\ tp_price d = Fin 0 /\ sl_price d = Fin 0.
Proof.
  apply (@error_outcome sample_talib (flat_candles 1 50) (flat_candles 2 50) None).
  right. right. left.
  split; [reflexivity|]. split; vm_compute; reflexivity.
Defined.

Lemma analyzing_outcome_witness :
  let d := @generate_signal sample_talib
             (flat_candles 4 50) (flat_candles 1 50) (Some 1.24) in
  signal d = ANALYZING /\
  signal d <> ERROR /\ signal d <> BUY /\ signal d <> SELL /\ signal d <> HOLD.
Proof.
  eapply (@analyzing_outcome sample_talib
            (flat_candles 4 50) (flat_candles 1 50) (Some 1.24)).
  - discriminate.
  - discriminate.
  - vm_compute. reflexivity.
  - vm_compute. reflexivity.
  - right. right. split; [discriminate|].
    eexists. eexists. split; [reflexivity|]. split; [reflexivity|].
    left. vm_compute. reflexivity.
Defined.

Lemma hold_without_majority_witness :
  let d := @generate_signal sample_talib
             (flat_candles 3 50) (flat_candles 1 50) (Some 1.24) in
  signal d = HOLD /\
  entry_price d = Fin 1.24 /\ tp_price d = Fin 1.24 /\ sl_price d = Fin 1.24.
Proof.
  apply (@hold_without_majority sample_talib
           (flat_candles 3 50) (flat_candles 1 50)
           (snapshot_of bearish_series 3) (snapshot_of bullish_series 1) 1.24).
  - apply sample_complete. vm_compute. reflexivity.
  - apply sample_complete. vm_compute. reflexivity.
  - intros [_ H]. vm_compute in H. discriminate.
  - intros [H _]. vm_compute in H. discriminate.
Defined.

(** The scenario of the specification: six bullish votes, none bearish. *)
Example scenario_tally :
  tally (snapshot_of bullish_series 1) (snapshot_of calm_series 2) (Fin 1.25)
  = (6, 0)%Z.
Proof. reflexivity. Qed.

Example scenario_confidence : confidence_of 6 0 == 100.
Proof. reflexivity. Qed.

Example failing_talib_error :
  signal (@generate_signal failing_talib
            (flat_candles 1 50) (flat_candles 2 50) (Some 1.25)) = ERROR.
Proof. reflexivity. Qed.

(** ** Where the claims on ERROR and ANALYZING fail as stated *)

(** C5 as stated fails: ten candles per timeframe and no quote.  The
    engine answers ANALYZING at the first check of the dictionaries,
    before the quote is requested. *)
Lemma no_quote_short_history_analyzing :
  let d := @generate_signal sample_talib
             (flat_candles 1 10) (flat_candles 1 10) None in
  signal d = ANALYZING /\
  ~ (forall (talib : TaLib) (candles_15m candles_1h : list candle)
            (quote : option Q),
       candles_15m = [] \/ candles_1h = [] \/ quote = None ->
       let d := generate_signal candles_15m candles_1h quote in
       signal d = ERROR /\
       entry_price d = Fin 0 /\ tp_price d = Fin 0 /\ sl_price d = Fin 0).
Proof.
  split; [reflexivity|].
  intro H.
  destruct (H sample_talib (flat_candles 1 10) (flat_candles 1 10) None
              (or_intror (or_intror eq_refl))) as [E _].
  vm_compute in E. discriminate.
Qed.

(** C6 as stated fails: fifty candles per timeframe, an RSI series of the
    fast timeframe that is NaN throughout, and no quote.  The dictionary
    of the fast timeframe has an undefined value, and the engine answers
    ERROR at the check of the quote, which comes first. *)
Lemma undefined_value_no_quote_error :
  let candles_15m := flat_candles 4 50 in
  let candles_1h := flat_candles 1 50 in
  let d := @generate_signal sample_talib candles_15m candles_1h None in
  (exists d15,
     @calculate_indicators sample_talib candles_15m = Ok (Some d15) /\
     rsi d15 = None /\ any_none d15 = true) /\
  signal d = ERROR /\
  ~ (forall (talib : TaLib) (candles_15m candles_1h : list candle)
            (quote : option Q),
       (calculate_indicators candles_15m = Ok None \/
        calculate_indicators candles_1h = Ok None \/
        (exists d15, calculate_indicators candles_15m = Ok (Some d15) /\
                     any_none d15 = true) \/
        (exists d1h, calculate_indicators candles_1h = Ok (Some d1h) /\
                     any_none d1h = true)) ->
       signal (generate_signal candles_15m candles_1h quote) = ANALYZING).
Proof.
  assert (U : exists d15,
             @calculate_indicators sample_talib (flat_candles 4 50)
               = Ok (Some d15) /\
             rsi d15 = None /\ any_none d15 = true).
  { eexists. split; [vm_compute; reflexivity|]. split; reflexivity. }
  split; [exact U|]. split; [reflexivity|].
  intro H. destruct U as (d15 & C & _ & A).
  specialize (H sample_talib (flat_candles 4 50) (flat_candles 1 50) None
                (or_intror (or_intror (or_introl (ex_intro _ d15 (conj C A)))))).
  vm_compute in H. discriminate.
Qed.

(** * The price levels in binary64 *)

Module Binary64Facts.

Import PrimFloat.
Import Binary64.

Lemma any_none_defined_b64 (d : snapshot (option float)) :
  any_none d = false -> exists i, defined d = Some i.
Proof.
  destruct d as [a b c e f g h i j k l].
  unfold any_none, values, defined; simpl.
  destruct a; simpl; [|discriminate].
  destruct b; simpl; [|discriminate].
  destruct c; simpl; [|discriminate].
  destruct e; simpl; [|discriminate].
  destruct f; simpl; [|discriminate].
  destruct g; simpl; [|discriminate].
  destruct h; simpl; [|discriminate].
  destruct i; simpl; [|discriminate].
  destruct j; simpl; [|discriminate].
  destruct k; simpl; [|discriminate].
  destruct l; simpl; [|discriminate].
  intros _. eexists. reflexivity.
Qed.

Lemma defined_any_none_b64 (d : snapshot (option float)) (i : snapshot float) :
  defined d = Some i -> any_none d = false.
Proof.
  destruct d as [a b c e f g h i' j k l].
  unfold any_none, values, defined; simpl.
  destruct a; [|discriminate].
  destruct b; [|discriminate].
  destruct c; [|discriminate].
  destruct e; [|discriminate].
  destruct f; [|discriminate].
  destruct g; [|discriminate].
  destruct h; [|discriminate].
  destruct i'; [|discriminate].
  destruct j; [|discriminate].
  destruct k; [|discriminate].
  destruct l; [|discriminate].
  reflexivity.
Qed.

Lemma decide_signal_b64 (c : config) (i15 i1h : snapshot float) (p : float) :
  signal (decide c i15 i1h p) = BUY \/
  signal (decide c i15 i1h p) = SELL \/
  signal (decide c i15 i1h p) = HOLD.
Proof.
  unfold decide. destruct (tally c i15 i1h p) as [b s].
  destruct (_ && _); [now left|].
  destruct (_ && _); [now right; left | now right; right].
Qed.


Section EngineFacts.

Context {talib : TaLib}.

Lemma calculate_indicators_short_b64 (c : config) (candles : list candle) :
  (List.length candles < 50)%nat -> calculate_indicators c candles = Ok None.
Proof.
  intro H. unfold calculate_indicators.
  apply Nat.ltb_lt in H. now rewrite H.
Qed.

Lemma calculate_indicators_Some_length_b64
      (c : config) (candles : list candle) (d : snapshot (option float)) :
  calculate_indicators c candles = Ok (Some d) ->
  (50 <= List.length candles)%nat.
Proof.
  intro H. destruct (Nat.lt_ge_cases (List.length candles) 50) as [L|L]; trivial.
  rewrite (calculate_indicators_short_b64 c _ L) in H. discriminate.
Qed.

(** With both dictionaries complete and a quote at hand, the [try] block
    returns what the voting stage decides. *)
Lemma generate_signal_try_complete_b64
      (c : config) (c15 c1h : list candle)
      (i15 i1h : snapshot float) (p : float) :
  complete_snapshot c c15 i15 ->
  complete_snapshot c c1h i1h ->
  generate_signal_try c c15 c1h (Some p) = Ok (decide c i15 i1h p).
Proof.
  intros (d15 & C15 & D15) (d1h & C1h & D1h).
  unfold generate_signal_try.
  pose proof (calculate_indicators_Some_length_b64 _ _ C15) as L15.
  pose proof (calculate_indicators_Some_length_b64 _ _ C1h) as L1h.
  destruct (List.length c15 =? 0)%nat eqn:E15;
    [apply Nat.eqb_eq in E15; lia|].
  destruct (List.length c1h =? 0)%nat eqn:E1h;
    [apply Nat.eqb_eq in E1h; lia|].
  cbn [orb]. rewrite C15, C1h. cbn [bind].
  rewrite (defined_any_none_b64 _ D15), (defined_any_none_b64 _ D1h).
  cbn [orb]. now rewrite D15, D1h.
Qed.


End EngineFacts.

Section CallFacts.

Context {talib : TaLib} {G : Type}.

(** A call leaves [Config] and the other globals as they were; the log
    can only grow. *)
Lemma generate_signal_frame (s : store G) (f : feed) :
  cfg (fst (generate_signal s f)) = cfg s /\
  globals (fst (generate_signal s f)) = globals s /\
  exists lines, log (fst (generate_signal s f)) = log s ++ lines.
Proof.
  unfold generate_signal.
  destruct (generate_signal_try _ _ _ _) as [d|e]; cbn.
  - repeat split. exists []. now rewrite app_nil_r.
  - repeat split. eexists. reflexivity.
Qed.

Lemma after_calls_frame (history : list feed) (s : store G) :
  cfg (after_calls s history) = cfg s /\
  globals (after_calls s history) = globals s /\
  exists lines, log (after_calls s history) = log s ++ lines.
Proof.
  revert s. induction history as [|f rest IH]; intro s; cbn [after_calls].
  - repeat split. exists []. now rewrite app_nil_r.
  - destruct (IH (fst (generate_signal s f))) as (C & R & lines & L).
    destruct (generate_signal_frame s f) as (C' & R' & lines' & L').
    split; [congruence|]. split; [congruence|].
    exists (lines' ++ lines). rewrite L, L'. now rewrite app_assoc.
Qed.

(** The tuple a call returns is read off [Config] and the feed. *)
Lemma generate_signal_reads_config (s : store G) (f : feed) :
  snd (generate_signal s f) =
  match generate_signal_try (cfg s) (candles_15m f) (candles_1h f) (quote f) with
  | Ok d => d
  | Raise e => mkDecision ERROR (SystemError e) 0 0 0
  end.
Proof.
  unfold generate_signal.
  destruct (generate_signal_try _ _ _ _); reflexivity.
Qed.

Lemma generate_signal_complete_b64
      (s : store G) (f : feed) (i15 i1h : snapshot float) (p : float) :
  complete_snapshot (cfg s) (candles_15m f) i15 ->
  complete_snapshot (cfg s) (candles_1h f) i1h ->
  quote f = Some p ->
  snd (generate_signal s f) = decide (cfg s) i15 i1h p.
Proof.
  intros C15 C1h Q. rewrite generate_signal_reads_config, Q.
  now rewrite (generate_signal_try_complete_b64 p C15 C1h).
Qed.


End CallFacts.


(** The multiplier of the target is the product of the two doubles 0.8
    and 1.5, one unit in the last place above the double 1.2. *)
Lemma ATR_TP_MULTIPLIER_value :
  ATR_TP_MULTIPLIER Config = 0x1.3333333333334p+0%float /\
  (1.2 <? ATR_TP_MULTIPLIER Config)%float = true /\
  next_up 1.2 = ATR_TP_MULTIPLIER Config.
Proof.
  repeat split; vm_compute; reflexivity.
Qed.

Section Claims.

Context {talib : TaLib} {G : Type}.

(** C1, amended: with complete dictionaries, more bullish than bearish
    votes and confidence above 30, the engine answers BUY at the current
    price, with the stop at price - ATR x 0.8 and the target at
    price + ATR x (0.8 x 1.5), every operation in binary64; the
    multiplier 0.8 x 1.5 is the double 1.2000000000000002, not 1.2. *)
Theorem buy_levels_binary64
        (s : store G) (f : feed) (i15 i1h : snapshot float) (p : float) :
  cfg s = Config ->
  complete_snapshot Config (candles_15m f) i15 ->
  complete_snapshot Config (candles_1h f) i1h ->
  quote f = Some p ->
  (fst (tally Config i15 i1h p) > snd (tally Config i15 i1h p))%Z ->
  gt (confidence_of (fst (tally Config i15 i1h p))
                    (snd (tally Config i15 i1h p))) 30 = true ->
  let d := snd (generate_signal s f) in
  signal d = BUY /\
  entry_price d = p /\
  sl_price d = (p - atr i15 * 0.8)%float /\
  tp_price d = (p + atr i15 * (0.8 * 1.5))%float /\
  (0.8 * 1.5)%float = 0x1.3333333333334p+0%float /\
  (0.8 * 1.5 =? 1.2)%float = false.
Proof.
  intros Hc C15 C1h Q Hmaj Hconf d. subst d.
  rewrite <- Hc in C15, C1h.
  rewrite (generate_signal_complete_b64 s f C15 C1h Q). rewrite Hc.
  unfold decide. destruct (tally Config i15 i1h p) as [b v]. cbn [fst snd] in *.
  apply Z.gt_lt, Z.gtb_lt in Hmaj. rewrite Hmaj, Hconf. cbn.
  repeat split.
Qed.


(** C9: the outcome of a call does not depend on the calls made before
    it, on the other globals or on the log.  Two calls in stores with the
    same [Config], each after any history of calls, that see the same
    complete dictionaries and the same quote return the same tuple, with
    the same counters and confidence; a call leaves [Config] and the
    other globals as it found them; and on any feed a call after a history
    of calls returns what it returns without that history. *)
Theorem no_state_from_prior_calls
        (s1 s2 : store G) (history1 history2 : list feed) (f1 f2 : feed)
        (i15 i1h : snapshot float) (p : float) :
  cfg s1 = cfg s2 ->
  complete_snapshot (cfg s1) (candles_15m f1) i15 ->
  complete_snapshot (cfg s1) (candles_1h f1) i1h ->
  quote f1 = Some p ->
  complete_snapshot (cfg s1) (candles_15m f2) i15 ->
  complete_snapshot (cfg s1) (candles_1h f2) i1h ->
  quote f2 = Some p ->
  let t1 := after_calls s1 history1 in
  let t2 := after_calls s2 history2 in
  snd (generate_signal t1 f1) = snd (generate_signal t2 f2) /\
  snd (generate_signal t1 f1) = snd (generate_signal s1 f1) /\
  tally (cfg t1) i15 i1h p = tally (cfg t2) i15 i1h p /\
  confidence_of (fst (tally (cfg t1) i15 i1h p)) (snd (tally (cfg t1) i15 i1h p)) =
  confidence_of (fst (tally (cfg t2) i15 i1h p)) (snd (tally (cfg t2) i15 i1h p)) /\
  cfg (fst (generate_signal t1 f1)) = cfg s1 /\
  globals (fst (generate_signal t1 f1)) = globals s1 /\
  (forall f, snd (generate_signal t1 f) = snd (generate_signal s1 f)).
Proof.
  intros Hc A15 A1h Q1 B15 B1h Q2 t1 t2.
  assert (Any : forall f, snd (generate_signal t1 f) = snd (generate_signal s1 f)).
  { intro f. rewrite !generate_signal_reads_config. unfold t1.
    now destruct (after_calls_frame history1 s1) as (-> & _). }
  destruct (after_calls_frame history1 s1) as (C1 & R1 & _).
  destruct (after_calls_frame history2 s2) as (C2 & R2 & _).
  fold t1 in C1, R1. fold t2 in C2, R2.
  destruct (generate_signal_frame t1 f1) as (C3 & R3 & _).
  assert (E1 : snd (generate_signal t1 f1) = decide (cfg s1) i15 i1h p).
  { rewrite <- C1. apply generate_signal_complete_b64; trivial;
      rewrite C1; assumption. }
  assert (E2 : snd (generate_signal t2 f2) = decide (cfg s1) i15 i1h p).
  { rewrite Hc, <- C2. apply generate_signal_complete_b64; trivial;
      rewrite C2, <- Hc; assumption. }
  assert (E3 : snd (generate_signal s1 f1) = decide (cfg s1) i15 i1h p).
  { now apply generate_signal_complete_b64. }
  repeat split; try congruence.
Qed.

End Claims.

(** ** The claims on sample data *)

Lemma sample_complete_b64 (s : series) (c : float) (n : nat) (i : snapshot float) :
  @calculate_indicators (scripted_talib s) Config (flat_candles c n) =
    Ok (Some (mkSnapshot (Some (ema_fast i)) (Some (ema_slow i)) (Some (rsi i))
                         (Some (macd i)) (Some (macd_signal i))
                         (Some (macd_hist i)) (Some (atr i))
                         (Some (upper_bb i)) (Some (middle_bb i))
                         (Some (lower_bb i)) (Some (price i)))) ->
  @complete_snapshot (scripted_talib s) Config (flat_candles c n) i.
Proof.
  intro H. eexists. split; [exact H|]. destruct i; reflexivity.
Defined.

Lemma buy_levels_binary64_witness :
  let d := snd (@generate_signal (scripted_talib (rising_series 1.33 0.00259))
                                 unit fresh_store
                                 (sample_feed 1.33851 (Some 1.33851%float))) in
  signal d = BUY /\
  entry_price d = 1.33851%float /\
  sl_price d = (1.33851 - 0.00259 * 0.8)%float /\
  tp_price d = (1.33851 + 0.00259 * (0.8 * 1.5))%float /\
  (0.8 * 1.5)%float = 0x1.3333333333334p+0%float /\
  (0.8 * 1.5 =? 1.2)%float = false.
Proof.
  apply (@buy_levels_binary64 (scripted_talib (rising_series 1.33 0.00259))
           unit fresh_store (sample_feed 1.33851 (Some 1.33851%float))
           (snapshot_of (rising_series 1.33 0.00259) 1.33851)
           (snapshot_of (rising_series 1.33 0.00259) 1.33851)
           1.33851%float).
  - reflexivity.
  - apply sample_complete_b64. vm_compute. reflexivity.
  - apply sample_complete_b64. vm_compute. reflexivity.
  - reflexivity.
  - vm_compute. reflexivity.
  - vm_compute. reflexivity.
Defined.

(** C1 as stated fails: quote 1.33851, ATR 0.00259, five bullish votes and
    none bearish.  The engine answers BUY with the target
    1.3416180000000002, while price + ATR x 1.2 is 1.341618. *)
Lemma target_differs_from_atr_times_1_2 :
  let s := rising_series 1.33 0.00259 in
  let i := snapshot_of s 1.33851 in
  let d := snd (@generate_signal (scripted_talib s) unit fresh_store
                                 (sample_feed 1.33851 (Some 1.33851%float))) in
  @complete_snapshot (scripted_talib s) Config (flat_candles 1.33851 50) i /\
  tally Config i i 1.33851 = (5, 0)%Z /\
  gt (confidence_of 5 0) 30 = true /\
  signal d = BUY /\
  tp_price d = 0x1.577446f9b994fp+0%float /\
  (1.33851 + 0.00259 * 1.2)%float = 0x1.577446f9b994ep+0%float /\
  (tp_price d =? 1.33851 + 0.00259 * 1.2)%float = false.
Proof.
  split.
  { apply sample_complete_b64. vm_compute. reflexivity. }
  repeat split; vm_compute; reflexivity.
Qed.



(** The same with a quote that is not a number: [float("nan")] passes the
    check of line 208, the votes of the indicators give BUY, and neither
    level compares with the entry. *)
Example nan_quote_levels_unordered :
  let s := rising_series 1.25 0.001 in
  let d := snd (@generate_signal (scripted_talib s) unit fresh_store
                                 (sample_feed 1.25 (Some nan))) in
  signal d = BUY /\
  lt (sl_price d) (entry_price d) = false /\
  lt (entry_price d) (tp_price d) = false.
Proof.
  repeat split; vm_compute; reflexivity.
Qed.

Lemma no_state_from_prior_calls_witness :
  let T := scripted_talib (rising_series 1.33 0.00259) in
  let s1 := fresh_store in
  let s2 := mkStore Config tt ["Signal generation error: earlier"%string] in
  let f1 := sample_feed 1.33851 (Some 1.33851%float) in
  let f2 := mkFeed (flat_candles 1.33851 60) (flat_candles 1.33851 70)
                   (Some 1.33851%float) in
  snd (@generate_signal T unit (after_calls s1 [f2; f1]) f1) =
  snd (@generate_signal T unit (after_calls s2 []) f2).
Proof.
  intros T s1 s2 f1 f2.
  apply (@no_state_from_prior_calls T unit s1 s2 [f2; f1] [] f1 f2
           (snapshot_of (rising_series 1.33 0.00259) 1.33851)
           (snapshot_of (rising_series 1.33 0.00259) 1.33851)
           1.33851%float).
  - reflexivity.
  - apply sample_complete_b64. vm_compute. reflexivity.
  - apply sample_complete_b64. vm_compute. reflexivity.
  - reflexivity.
  - apply sample_complete_b64. vm_compute. reflexivity.
  - apply sample_complete_b64. vm_compute. reflexivity.
  - reflexivity.
Defined.

End Binary64Facts.
